(** * A shallow embedding of [main.py]: user registration and referral lookup

    The service is a FastAPI application over one SQLAlchemy session per
    request.  The embedding keeps the shape of the source:

    - the two tables are lists of rows in insertion order (the order in which
      an unordered [SELECT] scans a rowid table that is never deleted from);
    - a handler is a function from the session to an outcome and a session;
      an outcome is a returned value, an [HTTPException] with its status code
      and detail, or an uncaught Python exception (which the framework turns
      into a 500 response);
    - Python's [int] is [Z], [//] is floor division and raises on a zero
      divisor, [l[a:b]] is the list slice with its clamping rules;
    - [uuid.uuid4()] and [datetime.now()] are inputs of the request. *)

From Stdlib Require Import ZArith List String Bool Lia.
Import ListNotations.
Open Scope string_scope.
Open Scope list_scope.
Open Scope Z_scope.

Set Implicit Arguments.

(** ** Pydantic models (lines 20-47) *)

Definition datetime := Z.

Module UserCreate.
(** [UserBase] / [UserCreate]: the request body of [POST /users/]. *)
Record t := Build {
  name : string;
  email : string;
  password : string;
  referral_code : option string
}.
End UserCreate.

Module User.
(** [User(UserBase)]: the response model, read from an ORM row
    ([orm_mode = True]). *)
Record t := Build {
  name : string;
  email : string;
  password : string;
  referral_code : option string;
  id : string;
  timestamp : option datetime
}.
End User.

(** ** SQLAlchemy models (lines 50-68) *)

Module UserModel.
(** A row of table [users]. *)
Record t := Build {
  id : string;
  name : string;
  email : string;
  password : string;
  referral_code : option string;
  timestamp : option datetime
}.
End UserModel.

Module ReferralModel.
(** A row of table [referrals]; no handler reads or writes it. *)
Record t := Build {
  id : string;
  user_id : string;
  referred_user_id : string
}.
End ReferralModel.

(** [User.from_orm]: every field of the response model is read from the
    attribute of the same name. *)
Definition from_orm (row : UserModel.t) : User.t :=
  {| User.name := UserModel.name row;
     User.email := UserModel.email row;
     User.password := UserModel.password row;
     User.referral_code := UserModel.referral_code row;
     User.id := UserModel.id row;
     User.timestamp := UserModel.timestamp row |}.

(** ** The database and the session *)

Record Database := {
  users : list UserModel.t;
  referrals : list ReferralModel.t
}.

(** A [Session] is bound to the database and holds the objects passed to
    [db.add] that are not yet committed. *)
Record Session := {
  bound : Database;
  pending : list UserModel.t
}.

Inductive PyError :=
| TypeError
| ZeroDivisionError
| IntegrityError
| InvalidRequestError.

Inductive Outcome (A : Type) :=
| Return (a : A)
| HTTPException (status_code : Z) (detail : string)
| Uncaught (e : PyError).

Arguments Return {A} a.
Arguments HTTPException {A} status_code detail.
Arguments Uncaught {A} e.

Definition Handler (A : Type) := Session -> Outcome A * Session.

Definition ret {A} (a : A) : Handler A := fun s => (Return a, s).

Definition bind {A B} (m : Handler A) (k : A -> Handler B) : Handler B :=
  fun s =>
    match m s with
    | (Return a, s') => k a s'
    | (HTTPException c d, s') => (HTTPException c d, s')
    | (Uncaught e, s') => (Uncaught e, s')
    end.

Definition raise_http {A} (status_code : Z) (detail : string) : Handler A :=
  fun s => (HTTPException status_code detail, s).

Definition raise {A} (e : PyError) : Handler A :=
  fun s => (Uncaught e, s).

Declare Scope handler_scope.
Delimit Scope handler_scope with handler.
Notation "x <- m ;; k" := (bind m (fun x => k))
  (at level 61, m at next level, right associativity) : handler_scope.
Notation "m ;; k" := (bind m (fun _ => k))
  (at level 61, right associativity) : handler_scope.
Open Scope handler_scope.

(** *** Column comparison

    [Column == value] on a Python [str] renders [column = ?]: a row matches
    when its column is not NULL and holds the same text.  On [None] SQLAlchemy
    renders [column IS NULL]: a row matches when its column is NULL. *)
Definition column_eq (column : option string) (value : option string) : bool :=
  match value with
  | None => match column with None => true | Some _ => false end
  | Some v => match column with None => false | Some c => String.eqb c v end
  end.

(** *** Queries

    [db.query(cols).filter(where).first()] is the first matching row or
    [None]; [.all()] is the list of matching rows.  [.all()] never answers
    [None]: the [option] around its list stands for the Python reference the
    handler tests with [is None]. *)
Definition query_first {A} (cols : UserModel.t -> A)
    (where_ : UserModel.t -> bool) : Handler (option A) :=
  fun s => (Return (option_map cols (find where_ (users (bound s)))), s).

Definition query_all (where_ : UserModel.t -> bool)
    : Handler (option (list UserModel.t)) :=
  fun s => (Return (Some (filter where_ (users (bound s)))), s).

(** *** Writes

    [db.add] registers the object; [db.commit] inserts the registered objects
    one by one, and the primary key on [id] and the unique index on [email]
    reject a row whose key is already present: the transaction is rolled back
    and [IntegrityError] is raised.  [db.refresh] reloads the object by its
    primary key. *)
Definition db_add (row : UserModel.t) : Handler unit :=
  fun s => (Return tt, {| bound := bound s; pending := pending s ++ [row] |}).

Definition violates (row : UserModel.t) (table : list UserModel.t) : bool :=
  existsb (fun r => String.eqb (UserModel.id r) (UserModel.id row)
                    || String.eqb (UserModel.email r) (UserModel.email row))
          table.

Fixpoint flush (rows table : list UserModel.t) : option (list UserModel.t) :=
  match rows with
  | [] => Some table
  | row :: rows' =>
      if violates row table then None else flush rows' (table ++ [row])
  end.

Definition db_commit : Handler unit :=
  fun s =>
    match flush (pending s) (users (bound s)) with
    | Some table =>
        (Return tt,
         {| bound := {| users := table; referrals := referrals (bound s) |};
            pending := [] |})
    | None => (Uncaught IntegrityError, {| bound := bound s; pending := [] |})
    end.

Definition db_refresh (row : UserModel.t) : Handler UserModel.t :=
  fun s =>
    match find (fun r => String.eqb (UserModel.id r) (UserModel.id row))
               (users (bound s)) with
    | Some r => (Return r, s)
    | None => (Uncaught InvalidRequestError, s)
    end.

(** [get_db] (lines 74-79): a fresh session around the handler, closed
    afterwards; what was added and not committed is dropped. *)
Definition get_db {A} (handler : Handler A) (d : Database)
    : Outcome A * Database :=
  let (r, s) := handler {| bound := d; pending := [] |} in (r, bound s).

(** ** Python primitives used by [read_referral] *)

(** [x[0]] on the result of [.first()]: [None] is not subscriptable. *)
Definition getitem0 {A} (x : option A) : Handler A :=
  match x with
  | Some a => ret a
  | None => raise TypeError
  end.

(** [a // b]: floor division, [ZeroDivisionError] on [b = 0]. *)
Definition floordiv (a b : Z) : Handler Z :=
  if b =? 0 then raise ZeroDivisionError else ret (a / b).

(** An index of a slice: a negative index counts from the end, and the
    result is clamped to [0 .. len]. *)
Definition slice_index (len i : Z) : Z :=
  if i <? 0 then Z.max 0 (i + len) else Z.min i len.

(** [l[start:stop]]. *)
Definition py_slice {A} (l : list A) (start stop : Z) : list A :=
  let len := Z.of_nat (List.length l) in
  let lo := slice_index len start in
  let hi := slice_index len stop in
  firstn (Z.to_nat (hi - lo)) (skipn (Z.to_nat lo) l).

(** ** The handlers (lines 89-139) *)

Definition create_user (user : UserCreate.t) (uuid4 : string) (now : datetime)
    : Handler UserModel.t :=
  existing_user <-
    query_first (fun u => u)
      (fun u => String.eqb (UserModel.email u) (UserCreate.email user)) ;;
  match existing_user with
  | Some _ => raise_http 400 "User with this email already exists"
  | None =>
      let db_user :=
        {| UserModel.id := uuid4;
           UserModel.name := UserCreate.name user;
           UserModel.email := UserCreate.email user;
           UserModel.password := UserCreate.password user;
           UserModel.referral_code := UserCreate.referral_code user;
           UserModel.timestamp := Some now |} in
      db_add db_user ;;
      db_commit ;;
      db_refresh db_user
  end.

Definition get_all_users : Handler (list UserModel.t) :=
  fun s => (Return (users (bound s)), s).

Definition read_user (user_id : string) : Handler UserModel.t :=
  user <- query_first (fun u => u)
            (fun u => String.eqb (UserModel.id u) user_id) ;;
  match user with
  | None => raise_http 404 "User not found"
  | Some user => ret user
  end.

Definition read_referral (user_id : string) (page per_page : Z)
    : Handler (list UserModel.t) :=
  check_current_user_refrel <-
    query_first UserModel.referral_code
      (fun u => String.eqb (UserModel.id u) user_id) ;;
  referral_code <- getitem0 check_current_user_refrel ;;
  referral <-
    query_all (fun u => column_eq (UserModel.referral_code u) referral_code) ;;
  match referral with
  | None => raise_http 404 "Referral not found"
  | Some referral =>
      let total_records := Z.of_nat (List.length referral) in
      total_pages <- floordiv (total_records + per_page - 1) per_page ;;
      if (page <? 1) || (page >? total_pages)
      then raise_http 404 "Invalid page number"
      else
        let start_index := (page - 1) * per_page in
        let end_index := Z.min (start_index + per_page) total_records in
        ret (py_slice referral start_index end_index)
  end.

(** ** The application: routes, defaults and response models *)

Inductive Request :=
| POST_users (user : UserCreate.t)
| GET_getall_users
| GET_users (user_id : string)
| GET_referrals (user_id : string) (page per_page : option Z).

(** What the request cannot choose: the value of [uuid.uuid4()] and of
    [datetime.now()] during the call. *)
Record Env := {
  uuid4 : string;
  now : datetime
}.

(** [response_model=User] or [response_model=List[User]]. *)
Inductive Response :=
| One (u : User.t)
| Many (l : list User.t).

Definition response_users (r : Response) : list User.t :=
  match r with
  | One u => [u]
  | Many l => l
  end.

Definition default {A} (d : A) (x : option A) : A :=
  match x with
  | Some v => v
  | None => d
  end.

Definition endpoint (env : Env) (req : Request) : Handler Response :=
  match req with
  | POST_users user =>
      u <- create_user user (uuid4 env) (now env) ;; ret (One (from_orm u))
  | GET_getall_users =>
      l <- get_all_users ;; ret (Many (map from_orm l))
  | GET_users user_id =>
      u <- read_user user_id ;; ret (One (from_orm u))
  | GET_referrals user_id page per_page =>
      l <- read_referral user_id (default 1 page) (default 20 per_page) ;;
      ret (Many (map from_orm l))
  end.

Definition app (env : Env) (req : Request) (d : Database)
    : Outcome Response * Database :=
  get_db (endpoint env req) d.

(** ** The words of the specification *)

(** "ceiling(total_matches / page_size)": the ceiling of the quotient, as the
    negated floor of the negated quotient. *)
Definition ceiling_div (m p : Z) : Z := - ((- m) / p).

(** ** Shorthands for the statements *)

(** The rows the query of line 127 selects for a code. *)
Definition matches (d : Database) (code : option string) : list UserModel.t :=
  filter (fun u => column_eq (UserModel.referral_code u) code) (users d).

(** The row the queries of lines 114 and 124 resolve an identifier to. *)
Definition lookup (d : Database) (user_id : string) : option UserModel.t :=
  find (fun u => String.eqb (UserModel.id u) user_id) (users d).

(** The page count of line 132, for a page size that is not zero. *)
Definition page_count (total_records per_page : Z) : Z :=
  (total_records + per_page - 1) / per_page.

(** [len(referral)] of line 131 for the row the lookup resolved. *)
Definition match_count (d : Database) (u : UserModel.t) : Z :=
  Z.of_nat (List.length (matches d (UserModel.referral_code u))).

(** The slice [l[start:stop]] without the clamping of [py_slice], for
    indices that are already in range. *)
Definition page_rows {A} (l : list A) (start stop : Z) : list A :=
  firstn (Z.to_nat (stop - start)) (skipn (Z.to_nat start) l).

(** The row [create_user] builds at line 96. *)
Definition new_row (env : Env) (user : UserCreate.t) : UserModel.t :=
  UserModel.Build (uuid4 env) (UserCreate.name user) (UserCreate.email user)
    (UserCreate.password user) (UserCreate.referral_code user)
    (Some (now env)).

(** The database after one committed insertion. *)
Definition insert_user (row : UserModel.t) (d : Database) : Database :=
  {| users := users d ++ [row]; referrals := referrals d |}.

(** ** The constraints of table [users] and runs of the service *)

(** The primary key on [id] (line 53) and the unique index on [email]
    (line 55), as a property of a table. *)
Definition unique_keys (d : Database) : Prop :=
  NoDup (map UserModel.id (users d)) /\
  NoDup (map UserModel.email (users d)).

(** The tests of the two constraints that [create_user] can meet: the email
    query of line 92, and the primary key at the commit of line 98. *)
Definition email_taken (d : Database) (email : string) : bool :=
  existsb (fun r => String.eqb (UserModel.email r) email) (users d).

Definition id_taken (d : Database) (user_id : string) : bool :=
  existsb (fun r => String.eqb (UserModel.id r) user_id) (users d).

(** A run of the service: the requests served one after the other, each
    with its own values of [uuid4()] and [now()]. *)
Definition serve (d : Database) (call : Env * Request) : Database :=
  snd (app (fst call) (snd call) d).

Definition run (calls : list (Env * Request)) (d : Database) : Database :=
  fold_left serve calls d.

(** The users a response carries; none when the request failed. *)
Definition returned_users (answer : Outcome Response * Database)
    : list User.t :=
  match fst answer with
  | Return r => response_users r
  | _ => []
  end.

(** The number of [POST /users/] requests of a run. *)
Definition posts (calls : list (Env * Request)) : nat :=
  List.length
    (filter (fun call => match snd call with POST_users _ => true | _ => false end)
            calls).

(** ** Sample data *)

Definition alice : UserModel.t :=
  UserModel.Build "id-a" "Alice" "alice@example.org" "alice-secret"
    (Some "X") (Some 1000).

Definition bob : UserModel.t :=
  UserModel.Build "id-b" "Bob" "bob@example.org" "bob-secret"
    (Some "X") (Some 2000).

Definition carol : UserModel.t :=
  UserModel.Build "id-c" "Carol" "carol@example.org" "carol-secret"
    None (Some 3000).

Definition dave : UserCreate.t :=
  UserCreate.Build "Dave" "dave@example.org" "dave-secret" (Some "X").

Definition alice_again : UserCreate.t :=
  UserCreate.Build "Alice II" "alice@example.org" "other" None.

Definition empty_db : Database := {| users := []; referrals := [] |}.
Definition db_ab : Database := {| users := [alice; bob]; referrals := [] |}.
Definition db_a : Database := {| users := [alice]; referrals := [] |}.
Definition db_abc : Database :=
  {| users := [alice; bob; carol]; referrals := [] |}.

Definition env_d : Env := {| uuid4 := "id-d"; now := 4000 |}.

(** * Properties *)

(** ** Column comparison and lookup *)

Lemma column_eq_iff (column value : option string) :
  column_eq column value = true <-> column = value.
Proof.
  destruct value as [v|], column as [c|]; simpl; split; intro H;
    try discriminate; try reflexivity.
  - apply String.eqb_eq in H. now subst.
  - injection H as ->. apply String.eqb_refl.
Qed.

Lemma column_eq_refl (c : option string) : column_eq c c = true.
Proof. now apply column_eq_iff. Qed.

Lemma In_matches (d : Database) (code : option string) (v : UserModel.t) :
  In v (matches d code) <->
  In v (users d) /\ UserModel.referral_code v = code.
Proof.
  unfold matches. rewrite filter_In, column_eq_iff. reflexivity.
Qed.

Lemma lookup_Some (d : Database) (user_id : string) (u : UserModel.t) :
  lookup d user_id = Some u -> In u (users d) /\ UserModel.id u = user_id.
Proof.
  unfold lookup. intro H. apply find_some in H. destruct H as [Hin Hid].
  split; [assumption | now apply String.eqb_eq].
Qed.

Lemma lookup_self_match (d : Database) (user_id : string) (u : UserModel.t) :
  lookup d user_id = Some u -> In u (matches d (UserModel.referral_code u)).
Proof.
  intro H. apply lookup_Some in H. apply In_matches. tauto.
Qed.

Lemma lookup_None (d : Database) (user_id : string) :
  lookup d user_id = None <->
  forall u, In u (users d) -> UserModel.id u <> user_id.
Proof.
  unfold lookup. split.
  - intros H u Hin Hid.
    apply (find_none _ _ H) in Hin. simpl in Hin.
    rewrite Hid, String.eqb_refl in Hin. discriminate.
  - intro H. destruct (find _ _) as [u|] eqn:E; [|reflexivity].
    apply find_some in E. destruct E as [Hin Hid].
    apply String.eqb_eq in Hid. now elim (H u Hin).
Qed.

Lemma referral_nonempty (d : Database) (user_id : string) (u : UserModel.t) :
  lookup d user_id = Some u ->
  1 <= Z.of_nat (List.length (matches d (UserModel.referral_code u))).
Proof.
  intro H. apply lookup_self_match in H.
  destruct (matches d (UserModel.referral_code u)); [contradiction|].
  simpl List.length. lia.
Qed.

(** ** What each handler does on a session *)

Lemma read_user_run (user_id : string) (s : Session) :
  read_user user_id s =
  match lookup (bound s) user_id with
  | Some u => (Return u, s)
  | None => (HTTPException 404 "User not found", s)
  end.
Proof.
  unfold read_user, bind, query_first, lookup.
  destruct (find _ _); reflexivity.
Qed.

Lemma read_referral_run (user_id : string) (page per_page : Z) (s : Session) :
  read_referral user_id page per_page s =
  match lookup (bound s) user_id with
  | None => (Uncaught TypeError, s)
  | Some u =>
      if per_page =? 0 then (Uncaught ZeroDivisionError, s)
      else
        let referral := matches (bound s) (UserModel.referral_code u) in
        let total_records := Z.of_nat (List.length referral) in
        let total_pages := (total_records + per_page - 1) / per_page in
        if (page <? 1) || (page >? total_pages)
        then (HTTPException 404 "Invalid page number", s)
        else
          let start_index := (page - 1) * per_page in
          let end_index := Z.min (start_index + per_page) total_records in
          (Return (py_slice referral start_index end_index), s)
  end.
Proof.
  unfold read_referral, bind, query_first, query_all, lookup, matches.
  destruct (find _ _) as [u|]; simpl; [|reflexivity].
  unfold floordiv. destruct (per_page =? 0); simpl; [reflexivity|].
  destruct ((page <? 1) || _); reflexivity.
Qed.

Lemma create_user_run (user : UserCreate.t) (uuid : string) (t : datetime)
    (s : Session) :
  create_user user uuid t s =
  match find (fun u => String.eqb (UserModel.email u) (UserCreate.email user))
             (users (bound s)) with
  | Some _ => (HTTPException 400 "User with this email already exists", s)
  | None =>
      let db_user :=
        UserModel.Build uuid (UserCreate.name user) (UserCreate.email user)
          (UserCreate.password user) (UserCreate.referral_code user) (Some t) in
      match flush (pending s ++ [db_user]) (users (bound s)) with
      | None =>
          (Uncaught IntegrityError, {| bound := bound s; pending := [] |})
      | Some table =>
          let s' := {| bound := {| users := table;
                                   referrals := referrals (bound s) |};
                       pending := [] |} in
          match find (fun r => String.eqb (UserModel.id r) uuid) table with
          | Some r => (Return r, s')
          | None => (Uncaught InvalidRequestError, s')
          end
      end
  end.
Proof.
  unfold create_user, bind, query_first.
  destruct (find _ _); simpl; [reflexivity|].
  unfold db_commit, db_refresh. simpl.
  destruct (flush _ _); simpl; [|reflexivity].
  destruct (find _ _); reflexivity.
Qed.

(** ** What each route answers on a database *)

Lemma app_GET_getall_users (env : Env) (d : Database) :
  app env GET_getall_users d = (Return (Many (map from_orm (users d))), d).
Proof. reflexivity. Qed.

Lemma app_GET_users (env : Env) (user_id : string) (d : Database) :
  app env (GET_users user_id) d =
  match lookup d user_id with
  | Some u => (Return (One (from_orm u)), d)
  | None => (HTTPException 404 "User not found", d)
  end.
Proof.
  unfold app, get_db, endpoint, bind. rewrite read_user_run. simpl.
  destruct (lookup d user_id); reflexivity.
Qed.

Lemma app_GET_referrals (env : Env) (user_id : string) (page per_page : option Z)
    (d : Database) :
  app env (GET_referrals user_id page per_page) d =
  match lookup d user_id with
  | None => (Uncaught TypeError, d)
  | Some u =>
      let page := default 1 page in
      let per_page := default 20 per_page in
      if per_page =? 0 then (Uncaught ZeroDivisionError, d)
      else
        let referral := matches d (UserModel.referral_code u) in
        let total_records := Z.of_nat (List.length referral) in
        let total_pages := (total_records + per_page - 1) / per_page in
        if (page <? 1) || (page >? total_pages)
        then (HTTPException 404 "Invalid page number", d)
        else
          let start_index := (page - 1) * per_page in
          let end_index := Z.min (start_index + per_page) total_records in
          (Return (Many (map from_orm
                           (py_slice referral start_index end_index))), d)
  end.
Proof.
  unfold app, get_db, endpoint, bind. rewrite read_referral_run. simpl.
  destruct (lookup d user_id); [|reflexivity].
  destruct (default 20 per_page =? 0); [reflexivity|].
  destruct ((default 1 page <? 1) || _); reflexivity.
Qed.

Lemma app_POST_users (env : Env) (user : UserCreate.t) (d : Database) :
  app env (POST_users user) d =
  match find (fun u => String.eqb (UserModel.email u) (UserCreate.email user))
             (users d) with
  | Some _ => (HTTPException 400 "User with this email already exists", d)
  | None =>
      let db_user := new_row env user in
      if violates db_user (users d) then (Uncaught IntegrityError, d)
      else
        match lookup (insert_user db_user d) (uuid4 env) with
        | Some r => (Return (One (from_orm r)), insert_user db_user d)
        | None => (Uncaught InvalidRequestError, insert_user db_user d)
        end
  end.
Proof.
  unfold app, get_db, endpoint, bind. rewrite create_user_run. simpl.
  destruct (find _ (users d)); [reflexivity|].
  fold (new_row env user).
  destruct (violates (new_row env user) (users d)); [reflexivity|].
  unfold lookup, insert_user. simpl.
  destruct (find _ (users d ++ _)); reflexivity.
Qed.

(** ** Missing users, duplicate emails, creation *)

(** C4 (as the code behaves): for an identifier absent from [users],
    [GET /users/{id}] answers 404 "User not found", while
    [GET /referrals/{id}] subscripts [None] at line 125 and ends in an
    uncaught [TypeError] instead of a 404. *)
Theorem missing_user_404_only_in_read_user
    (env : Env) (user_id : string) (page per_page : option Z) (d : Database) :
  lookup d user_id = None ->
  app env (GET_users user_id) d = (HTTPException 404 "User not found", d) /\
  app env (GET_referrals user_id page per_page) d = (Uncaught TypeError, d).
Proof.
  intro H. rewrite app_GET_users, app_GET_referrals, H. split; reflexivity.
Qed.

Lemma missing_user_404_only_in_read_user_witness :
  lookup db_ab "id-z" = None /\
  app env_d (GET_users "id-z") db_ab
    = (HTTPException 404 "User not found", db_ab) /\
  app env_d (GET_referrals "id-z" None None) db_ab
    = (Uncaught TypeError, db_ab).
Proof.
  split; [reflexivity|].
  apply (@missing_user_404_only_in_read_user env_d "id-z" None None db_ab).
  reflexivity.
Defined.

Lemma find_email_Some (e : string) (l : list UserModel.t) (u : UserModel.t) :
  In u l -> UserModel.email u = e ->
  exists v, find (fun r => String.eqb (UserModel.email r) e) l = Some v.
Proof.
  intros Hin He.
  destruct (find _ l) as [v|] eqn:E; [now exists v|].
  apply (find_none _ _ E) in Hin. simpl in Hin.
  rewrite He, String.eqb_refl in Hin. discriminate.
Qed.

(** C5: when some stored user already has the email of the request,
    [POST /users/] answers 400 "User with this email already exists" and the
    database is the one it started from. *)
Theorem create_user_duplicate_email
    (env : Env) (user : UserCreate.t) (d : Database) (u : UserModel.t) :
  In u (users d) ->
  UserModel.email u = UserCreate.email user ->
  app env (POST_users user) d =
  (HTTPException 400 "User with this email already exists", d).
Proof.
  intros Hin He. rewrite app_POST_users.
  destruct (find_email_Some _ _ Hin He) as [v ->]. reflexivity.
Qed.

Lemma create_user_duplicate_email_witness :
  In alice (users db_ab) /\
  UserModel.email alice = UserCreate.email alice_again /\
  app env_d (POST_users alice_again) db_ab =
  (HTTPException 400 "User with this email already exists", db_ab).
Proof.
  assert (Hin : In alice (users db_ab)) by (simpl; auto).
  assert (He : UserModel.email alice = UserCreate.email alice_again)
    by reflexivity.
  split; [exact Hin|]. split; [exact He|].
  exact (@create_user_duplicate_email env_d alice_again db_ab alice Hin He).
Defined.

Lemma find_app_None {A} (p : A -> bool) (l l' : list A) :
  find p l = None -> find p (l ++ l') = find p l'.
Proof.
  induction l as [|x l IH]; simpl; [reflexivity|].
  destruct (p x); [discriminate | exact IH].
Qed.

Lemma find_None_forall {A} (p : A -> bool) (l : list A) :
  (forall x, In x l -> p x = false) -> find p l = None.
Proof.
  intro H. destruct (find p l) as [x|] eqn:E; [|reflexivity].
  apply find_some in E. destruct E as [Hin Hp].
  rewrite (H x Hin) in Hp. discriminate.
Qed.

Lemma violates_false (row : UserModel.t) (table : list UserModel.t) :
  (forall r, In r table -> UserModel.id r <> UserModel.id row) ->
  (forall r, In r table -> UserModel.email r <> UserModel.email row) ->
  violates row table = false.
Proof.
  intros Hid Hem. unfold violates.
  destruct (existsb _ table) eqn:E; [|reflexivity].
  apply existsb_exists in E. destruct E as [r [Hin Hr]].
  apply orb_true_iff in Hr. destruct Hr as [Hr|Hr]; apply String.eqb_eq in Hr.
  - now elim (Hid r Hin).
  - now elim (Hem r Hin).
Qed.

(** C6: when no stored user has the email of the request (and [uuid4()]
    answers an identifier that is not yet a primary key of [users]),
    [POST /users/] succeeds and returns the new record, which carries that
    identifier and the submitted fields; [GET /users/{id}] on the returned
    identifier then succeeds and returns the same record. *)
Theorem create_then_read_user
    (env env' : Env) (user : UserCreate.t) (d : Database) :
  (forall u, In u (users d) -> UserModel.email u <> UserCreate.email user) ->
  (forall u, In u (users d) -> UserModel.id u <> uuid4 env) ->
  let created := from_orm (new_row env user) in
  let d' := insert_user (new_row env user) d in
  app env (POST_users user) d = (Return (One created), d') /\
  User.id created = uuid4 env /\
  User.name created = UserCreate.name user /\
  User.email created = UserCreate.email user /\
  User.password created = UserCreate.password user /\
  User.referral_code created = UserCreate.referral_code user /\
  app env' (GET_users (User.id created)) d' = (Return (One created), d').
Proof.
  intros Hem Hid created d'.
  assert (Hlook : lookup d' (uuid4 env) = Some (new_row env user)).
  { unfold lookup, d', insert_user. simpl. rewrite find_app_None.
    - simpl. now rewrite String.eqb_refl.
    - apply find_None_forall. intros x Hin.
      apply String.eqb_neq. now apply Hid. }
  repeat split.
  - rewrite app_POST_users.
    rewrite find_None_forall
      by (intros x Hin; apply String.eqb_neq; now apply Hem).
    simpl. rewrite violates_false by assumption.
    fold d'. now rewrite Hlook.
  - rewrite app_GET_users. simpl. now rewrite Hlook.
Qed.

Lemma create_then_read_user_witness :
  (forall u, In u (users db_ab) ->
             UserModel.email u <> UserCreate.email dave) /\
  (forall u, In u (users db_ab) -> UserModel.id u <> uuid4 env_d) /\
  app env_d (POST_users dave) db_ab =
    (Return (One (from_orm (new_row env_d dave))),
     insert_user (new_row env_d dave) db_ab) /\
  app env_d (GET_users "id-d") (insert_user (new_row env_d dave) db_ab) =
    (Return (One (from_orm (new_row env_d dave))),
     insert_user (new_row env_d dave) db_ab).
Proof.
  assert (Hem : forall u, In u (users db_ab) ->
                          UserModel.email u <> UserCreate.email dave).
  { simpl. intros u [<-|[<-|[]]]; discriminate. }
  assert (Hid : forall u, In u (users db_ab) -> UserModel.id u <> uuid4 env_d).
  { simpl. intros u [<-|[<-|[]]]; discriminate. }
  split; [exact Hem|]. split; [exact Hid|].
  destruct (@create_then_read_user env_d env_d dave db_ab Hem Hid)
    as [Hpost [_ [_ [_ [_ [_ Hget]]]]]].
  split; [exact Hpost | exact Hget].
Defined.

(** ** The frame of every route *)

Lemma app_database (env : Env) (req : Request) (d : Database) :
  snd (app env req d) = d \/
  exists user, req = POST_users user /\
               snd (app env req d) = insert_user (new_row env user) d.
Proof.
  destruct req as [user| |user_id|user_id page per_page].
  - rewrite app_POST_users.
    destruct (find _ (users d)); [now left|]. simpl.
    destruct (violates _ _); [now left|].
    right. exists user. split; [reflexivity|].
    destruct (lookup _ _); reflexivity.
  - left. reflexivity.
  - left. rewrite app_GET_users. destruct (lookup d user_id); reflexivity.
  - left. rewrite app_GET_referrals.
    destruct (lookup d user_id); [|reflexivity]. simpl.
    destruct (default 20 per_page =? 0); [reflexivity|].
    destruct ((default 1 page <? 1) || _); reflexivity.
Qed.

(** C7: whatever the route and its outcome, the [users] table afterwards is
    the table before, or the table before followed by the one row a
    [POST /users/] inserted; every row stored before is stored afterwards at
    the same position with the same fields, and [referrals] is untouched. *)
Theorem user_records_immutable (env : Env) (req : Request) (d : Database) :
  let d' := snd (app env req d) in
  (users d' = users d \/
   exists user, req = POST_users user /\
                users d' = users d ++ [new_row env user]) /\
  referrals d' = referrals d /\
  (forall i row, nth_error (users d) i = Some row ->
                 nth_error (users d') i = Some row) /\
  (forall row, In row (users d) -> In row (users d')).
Proof.
  intro d'. subst d'.
  destruct (app_database env req d) as [->|[user [Hreq ->]]].
  - repeat split; auto.
  - repeat split.
    + right. exists user. split; [exact Hreq | reflexivity].
    + intros i row Hi. simpl. rewrite nth_error_app1; [exact Hi|].
      apply nth_error_Some. congruence.
    + intros row Hin. simpl. apply in_or_app. now left.
Qed.

(** ** The referral lookup: errors *)

(** C8: for an existing user, [GET /referrals/{id}] with [per_page = 0]
    reaches the division of line 132 with a zero divisor and ends in an
    uncaught [ZeroDivisionError], whatever the page; no HTTP error is
    raised. *)
Theorem read_referral_per_page_zero
    (env : Env) (user_id : string) (page : option Z) (d : Database)
    (u : UserModel.t) :
  lookup d user_id = Some u ->
  app env (GET_referrals user_id page (Some 0)) d
  = (Uncaught ZeroDivisionError, d).
Proof.
  intro H. rewrite app_GET_referrals, H. reflexivity.
Qed.

Lemma read_referral_per_page_zero_witness :
  lookup db_ab "id-a" = Some alice /\
  app env_d (GET_referrals "id-a" (Some 1) (Some 0)) db_ab
  = (Uncaught ZeroDivisionError, db_ab).
Proof.
  assert (H : lookup db_ab "id-a" = Some alice) by reflexivity.
  split; [exact H|].
  exact (@read_referral_per_page_zero env_d "id-a" (Some 1) db_ab alice H).
Defined.

Lemma query_all_is_list (where_ : UserModel.t -> bool) (s : Session) :
  exists l, query_all where_ s = (Return (Some l), s).
Proof. eexists. reflexivity. Qed.

(** C9: [.all()] answers a list, so the [is None] test of line 128 never
    holds: whenever [GET /referrals/{id}] ends in an [HTTPException], it is
    the 404 "Invalid page number" of the page-range check and never the
    404 "Referral not found". *)
Theorem referral_not_found_unreachable
    (env : Env) (user_id : string) (page per_page : option Z) (d : Database)
    (status_code : Z) (detail : string) :
  fst (app env (GET_referrals user_id page per_page) d)
  = HTTPException status_code detail ->
  status_code = 404 /\ detail = "Invalid page number" /\
  detail <> "Referral not found".
Proof.
  rewrite app_GET_referrals.
  destruct (lookup d user_id); [|discriminate]. simpl.
  destruct (default 20 per_page =? 0); [discriminate|].
  destruct ((default 1 page <? 1) || _); [|discriminate].
  simpl. intro H. injection H as <- <-.
  repeat split. discriminate.
Qed.

Lemma referral_not_found_unreachable_witness :
  fst (app env_d (GET_referrals "id-a" (Some 2) None) db_ab)
  = HTTPException 404 "Invalid page number" /\
  404 = 404 /\ "Invalid page number" = "Invalid page number" /\
  "Invalid page number" <> "Referral not found".
Proof.
  assert (H : fst (app env_d (GET_referrals "id-a" (Some 2) None) db_ab)
              = HTTPException 404 "Invalid page number") by reflexivity.
  split; [exact H|].
  exact (@referral_not_found_unreachable env_d "id-a" (Some 2) None db_ab
           404 "Invalid page number" H).
Defined.

(** ** Slices *)

Section Slices.
Context {A : Type}.
Implicit Types (l : list A) (x : A).

Lemma In_firstn_skipn l (n k : nat) x :
  In x (firstn n (skipn k l)) -> In x l.
Proof.
  intro H.
  rewrite <- (firstn_skipn k l). apply in_or_app. right.
  rewrite <- (firstn_skipn n (skipn k l)). apply in_or_app. now left.
Qed.

Lemma In_py_slice l (start stop : Z) x :
  In x (py_slice l start stop) -> In x l.
Proof. unfold py_slice. apply In_firstn_skipn. Qed.

Lemma slice_index_in_range (len i : Z) :
  0 <= i <= len -> slice_index len i = i.
Proof.
  intro H. unfold slice_index.
  destruct (Z.ltb_spec i 0); lia.
Qed.

Lemma py_slice_in_range l (start stop : Z) :
  0 <= start <= stop -> stop <= Z.of_nat (List.length l) ->
  py_slice l start stop = page_rows l start stop.
Proof.
  intros H1 H2. unfold py_slice, page_rows.
  rewrite !slice_index_in_range by lia. reflexivity.
Qed.

Lemma length_page_rows l (start stop : Z) :
  0 <= start <= stop -> stop <= Z.of_nat (List.length l) ->
  Z.of_nat (List.length (page_rows l start stop)) = stop - start.
Proof.
  intros H1 H2. unfold page_rows.
  rewrite length_firstn, length_skipn. lia.
Qed.

Lemma page_rows_all l (stop : Z) :
  Z.of_nat (List.length l) <= stop -> page_rows l 0 stop = l.
Proof.
  intro H. unfold page_rows. change (Z.to_nat 0) with 0%nat.
  rewrite skipn_0. apply firstn_all2. lia.
Qed.


End Slices.

(** ** Page arithmetic *)

Section Pages.
Variables m per_page : Z.
Hypothesis per_page_pos : 1 <= per_page.

Lemma page_count_bounds :
  (page_count m per_page - 1) * per_page < m <= page_count m per_page * per_page.
Proof.
  unfold page_count.
  pose proof (Z.div_mod (m + per_page - 1) per_page ltac:(lia)) as E.
  pose proof (Z.mod_pos_bound (m + per_page - 1) per_page ltac:(lia)) as B.
  nia.
Qed.

Lemma ceiling_div_bounds :
  (ceiling_div m per_page - 1) * per_page < m
  <= ceiling_div m per_page * per_page.
Proof.
  unfold ceiling_div.
  pose proof (Z.div_mod (- m) per_page ltac:(lia)) as E.
  pose proof (Z.mod_pos_bound (- m) per_page ltac:(lia)) as B.
  nia.
Qed.

Lemma page_count_ceiling : page_count m per_page = ceiling_div m per_page.
Proof.
  pose proof page_count_bounds as H1.
  pose proof ceiling_div_bounds as H2.
  nia.
Qed.

Lemma page_in_range (page total : Z) :
  (page <? 1) || (page >? total) = false <-> 1 <= page <= total.
Proof.
  rewrite orb_false_iff, Z.ltb_ge, Z.gtb_ltb, Z.ltb_ge. reflexivity.
Qed.

Lemma page_indices (page : Z) :
  1 <= page <= page_count m per_page ->
  let start_index := (page - 1) * per_page in
  let end_index := Z.min (start_index + per_page) m in
  0 <= start_index < end_index /\ end_index <= m /\
  end_index - start_index <= per_page.
Proof.
  intros Hp start_index end_index. subst start_index end_index.
  pose proof page_count_bounds as H. nia.
Qed.
End Pages.

(** ** The referral lookup: pages *)

Section ReferralLookup.
Variables (env : Env) (d : Database) (user_id : string) (u : UserModel.t).
Variable per_page : Z.
Hypothesis user_exists : lookup d user_id = Some u.
Hypothesis per_page_pos : 1 <= per_page.

Lemma referral_page_out_of_range (page : Z) :
  ~ (1 <= page <= page_count (match_count d u) per_page) ->
  app env (GET_referrals user_id (Some page) (Some per_page)) d
  = (HTTPException 404 "Invalid page number", d).
Proof.
  intro Hp. rewrite app_GET_referrals, user_exists. simpl.
  destruct (Z.eqb_spec per_page 0); [lia|].
  destruct ((page <? 1) || _) eqn:E; [reflexivity|].
  apply page_in_range in E. contradiction.
Qed.

Lemma referral_page_in_range (page : Z) :
  1 <= page <= page_count (match_count d u) per_page ->
  app env (GET_referrals user_id (Some page) (Some per_page)) d
  = (Return (Many (map from_orm
       (page_rows (matches d (UserModel.referral_code u))
          ((page - 1) * per_page)
          (Z.min ((page - 1) * per_page + per_page) (match_count d u))))),
     d).
Proof.
  intro Hp.
  destruct (@page_indices (match_count d u) per_page per_page_pos page Hp)
    as [H1 [H2 H3]].
  rewrite app_GET_referrals, user_exists. simpl.
  destruct (Z.eqb_spec per_page 0); [lia|].
  apply page_in_range in Hp. unfold page_count, match_count in Hp.
  rewrite Hp.
  rewrite py_slice_in_range; [reflexivity| |]; unfold match_count in *; lia.
Qed.

Lemma referral_first_page_exists :
  1 <= page_count (match_count d u) per_page.
Proof.
  pose proof (referral_nonempty _ _ user_exists) as Hm.
  pose proof (page_count_bounds (match_count d u) per_page_pos) as B.
  unfold match_count in *. nia.
Qed.

Lemma referral_single_page :
  match_count d u <= per_page ->
  app env (GET_referrals user_id (Some 1) (Some per_page)) d
  = (Return (Many (map from_orm (matches d (UserModel.referral_code u)))), d).
Proof.
  intro Hle. pose proof referral_first_page_exists.
  rewrite referral_page_in_range by lia.
  change ((1 - 1) * per_page) with 0.
  rewrite page_rows_all; [reflexivity|].
  unfold match_count in *. lia.
Qed.

End ReferralLookup.

(** C2 (amended: page size at least 1): for a lookup on an existing user
    with [m] matches and [per_page >= 1], the page count of line 132 is
    ceiling(m / per_page); a page outside [1, total_pages] ends in 404
    "Invalid page number"; a page inside is answered with the rows of the
    match list from index [(page-1)*per_page] up to
    [min((page-1)*per_page + per_page, m)], which are at most [per_page]
    rows, and the database is left as it was. *)
Theorem read_referral_pagination
    (env : Env) (d : Database) (user_id : string) (u : UserModel.t)
    (page per_page : Z) :
  lookup d user_id = Some u ->
  1 <= per_page ->
  let referral := matches d (UserModel.referral_code u) in
  let m := Z.of_nat (List.length referral) in
  let total_pages := (m + per_page - 1) / per_page in
  total_pages = ceiling_div m per_page /\
  (total_pages - 1) * per_page < m <= total_pages * per_page /\
  (~ (1 <= page <= total_pages) ->
   app env (GET_referrals user_id (Some page) (Some per_page)) d
   = (HTTPException 404 "Invalid page number", d)) /\
  (1 <= page <= total_pages ->
   let start_index := (page - 1) * per_page in
   let end_index := Z.min (start_index + per_page) m in
   let rows := page_rows referral start_index end_index in
   app env (GET_referrals user_id (Some page) (Some per_page)) d
   = (Return (Many (map from_orm rows)), d) /\
   py_slice referral start_index end_index = rows /\
   0 <= start_index < end_index /\ end_index <= m /\
   Z.of_nat (List.length rows) = end_index - start_index /\
   Z.of_nat (List.length rows) <= per_page).
Proof.
  intros Hu Hpp referral m total_pages.
  change m with (match_count d u) in *.
  change total_pages with (page_count (match_count d u) per_page) in *.
  split; [now apply page_count_ceiling|].
  split; [now apply page_count_bounds|].
  split.
  - intro Hp. now apply referral_page_out_of_range with (u := u).
  - intros Hp start_index end_index rows.
    destruct (@page_indices (match_count d u) per_page Hpp page Hp)
      as [H1 [H2 H3]].
    fold start_index end_index in H1, H2, H3.
    assert (Hlen : Z.of_nat (List.length rows) = end_index - start_index)
      by (apply length_page_rows; unfold match_count, referral in *; lia).
    split; [now apply referral_page_in_range|].
    split; [apply py_slice_in_range; unfold match_count, referral in *; lia|].
    repeat split; lia.
Qed.

Lemma read_referral_pagination_witness :
  lookup db_abc "id-a" = Some alice /\ 1 <= 1 /\
  app env_d (GET_referrals "id-a" (Some 2) (Some 1)) db_abc
  = (Return (Many [from_orm bob]), db_abc) /\
  app env_d (GET_referrals "id-a" (Some 3) (Some 1)) db_abc
  = (HTTPException 404 "Invalid page number", db_abc).
Proof.
  assert (Hu : lookup db_abc "id-a" = Some alice) by reflexivity.
  assert (Hpp : 1 <= 1) by lia.
  split; [exact Hu|]. split; [exact Hpp|]. split.
  - destruct (@read_referral_pagination env_d db_abc "id-a" alice 2 1 Hu Hpp)
      as [_ [_ [_ Hin]]].
    apply Hin. vm_compute. split; discriminate.
  - destruct (@read_referral_pagination env_d db_abc "id-a" alice 3 1 Hu Hpp)
      as [_ [_ [Hout _]]].
    apply Hout. vm_compute. intros [_ H]. now apply H.
Defined.

(** C2 as stated fails for a negative page size: Alice is the only user
    with code "X" and [per_page = -1]; ceiling(1 / -1) is -1, so page 1 is
    outside [1, total_pages] and the claim asks for a not-found error; the
    code computes [(1 + -1 - 1) // -1 = 1] page at line 132 and answers
    page 1 with the slice [referral[0:-1]], which is empty. *)
Lemma negative_per_page_counterexample :
  lookup db_a "id-a" = Some alice /\
  Z.of_nat (List.length (matches db_a (UserModel.referral_code alice))) = 1 /\
  ceiling_div 1 (-1) = -1 /\
  ~ (1 <= 1 <= ceiling_div 1 (-1)) /\
  (1 + (-1) - 1) / (-1) <> ceiling_div 1 (-1) /\
  app env_d (GET_referrals "id-a" (Some 1) (Some (-1))) db_a
  = (Return (Many []), db_a).
Proof.
  repeat split; try reflexivity.
  - vm_compute. intros [_ H]. now apply H.
  - vm_compute. discriminate.
Qed.




(** C3 (amended: a null code selects the users with a null code): for an
    existing user whose [referral_code] is null, the lookup selects exactly
    the stored users whose [referral_code] is null, the user itself among
    them, so there is at least one match and, for [per_page >= 1], at least
    one page.  Every page from 1 to the page count, page 1 among them, is
    answered with a non-empty list of users with a null code, the slice of
    the selection for that page; the pages outside [1, total_pages] end in
    404 "Invalid page number"; so the request fails exactly when the page
    is outside that range. *)
Theorem read_referral_null_code
    (env : Env) (d : Database) (user_id : string) (u : UserModel.t)
    (per_page : Z) :
  lookup d user_id = Some u ->
  UserModel.referral_code u = None ->
  1 <= per_page ->
  let referral := matches d None in
  let m := Z.of_nat (List.length referral) in
  let total_pages := (m + per_page - 1) / per_page in
  let answer page :=
    app env (GET_referrals user_id (Some page) (Some per_page)) d in
  (forall v, In v referral <->
             In v (users d) /\ UserModel.referral_code v = None) /\
  In u referral /\
  1 <= m /\
  total_pages = ceiling_div m per_page /\
  1 <= total_pages /\
  (exists rows,
     answer 1 = (Return (Many (map from_orm rows)), d) /\
     rows <> [] /\
     forall v, In v rows -> UserModel.referral_code v = None) /\
  (forall page, 1 <= page <= total_pages ->
     let rows := page_rows referral ((page - 1) * per_page)
                   (Z.min ((page - 1) * per_page + per_page) m) in
     answer page = (Return (Many (map from_orm rows)), d) /\
     rows <> [] /\
     forall v, In v rows -> UserModel.referral_code v = None) /\
  (forall page, ~ (1 <= page <= total_pages) ->
     answer page = (HTTPException 404 "Invalid page number", d)) /\
  (forall page,
     (exists status_code detail,
        fst (answer page) = HTTPException status_code detail)
     <-> ~ (1 <= page <= total_pages)) /\
  (forall page e, fst (answer page) <> Uncaught e).
Proof.
  intros Hu Hnull Hpp referral m total_pages answer.
  subst referral m total_pages answer. cbv beta. rewrite <- Hnull.
  change (Z.of_nat (List.length (matches d (UserModel.referral_code u))))
    with (match_count d u).
  change ((match_count d u + per_page - 1) / per_page)
    with (page_count (match_count d u) per_page).
  pose proof (referral_nonempty _ _ Hu) as Hm.
  fold (match_count d u) in Hm.
  pose proof (referral_first_page_exists _ _ Hu Hpp) as Hfirst.
  assert (Hin : forall page,
            1 <= page <= page_count (match_count d u) per_page ->
            let rows := page_rows (matches d (UserModel.referral_code u))
                          ((page - 1) * per_page)
                          (Z.min ((page - 1) * per_page + per_page)
                                 (match_count d u)) in
            app env (GET_referrals user_id (Some page) (Some per_page)) d
            = (Return (Many (map from_orm rows)), d) /\
            rows <> [] /\
            forall v, In v rows ->
                      UserModel.referral_code v = UserModel.referral_code u).
  { intros page Hp rows.
    destruct (@page_indices (match_count d u) per_page Hpp page Hp)
      as [H1 [H2 H3]].
    split; [|split].
    - exact (@referral_page_in_range env d user_id u per_page Hu Hpp page Hp).
    - intro E. apply (f_equal (fun l => Z.of_nat (List.length l))) in E.
      unfold rows in E.
      rewrite length_page_rows in E by (unfold match_count in *; lia).
      simpl in E. lia.
    - intros v Hv. apply In_firstn_skipn in Hv.
      now apply In_matches in Hv. }
  pose proof (@referral_page_out_of_range env d user_id u per_page Hu Hpp)
    as Hout.
  split; [intro v; apply In_matches|].
  split; [now apply lookup_self_match with (user_id := user_id)|].
  split; [exact Hm|].
  split; [now apply page_count_ceiling|].
  split; [exact Hfirst|].
  split; [eexists; apply (Hin 1); lia|].
  split; [exact Hin|].
  split; [exact Hout|].
  split.
  - intro page. split.
    + intros [c [det Hfail]] Hp.
      destruct (Hin page Hp) as [Hok _]. rewrite Hok in Hfail. discriminate.
    + intro Hp. rewrite (Hout page Hp). now exists 404, "Invalid page number".
  - intros page e Hcrash.
    destruct (Z_le_dec 1 page) as [H1|H1];
      [destruct (Z_le_dec page (page_count (match_count d u) per_page))
         as [H2|H2]|].
    + destruct (Hin page (conj H1 H2)) as [Hok _].
      rewrite Hok in Hcrash. discriminate.
    + rewrite Hout in Hcrash by lia. discriminate.
    + rewrite Hout in Hcrash by lia. discriminate.
Qed.

Lemma read_referral_null_code_witness :
  lookup db_abc "id-c" = Some carol /\
  UserModel.referral_code carol = None /\ 1 <= 20 /\
  In carol (matches db_abc None) /\
  1 <= Z.of_nat (List.length (matches db_abc None)) /\
  app env_d (GET_referrals "id-c" (Some 1) (Some 20)) db_abc
  = (Return (Many [from_orm carol]), db_abc) /\
  app env_d (GET_referrals "id-c" (Some 2) (Some 20)) db_abc
  = (HTTPException 404 "Invalid page number", db_abc).
Proof.
  assert (Hu : lookup db_abc "id-c" = Some carol) by reflexivity.
  assert (Hnull : UserModel.referral_code carol = None) by reflexivity.
  assert (Hpp : 1 <= 20) by lia.
  split; [exact Hu|]. split; [exact Hnull|]. split; [exact Hpp|].
  destruct (@read_referral_null_code env_d db_abc "id-c" carol 20
              Hu Hnull Hpp)
    as [_ [Hself [Hm [_ [_ [_ [Hin [Hout _]]]]]]]].
  split; [exact Hself|]. split; [exact Hm|]. split.
  - destruct (Hin 1) as [Hok _]; [vm_compute; split; discriminate|].
    exact Hok.
  - apply Hout. vm_compute. intros [_ H]. now apply H.
Defined.

(** C3 as stated fails: Carol has no [referral_code], and page 1 of her
    lookup is answered with Carol herself instead of a not-found error. *)
Lemma null_code_counterexample :
  lookup db_abc "id-c" = Some carol /\
  UserModel.referral_code carol = None /\
  matches db_abc None = [carol] /\
  app env_d (GET_referrals "id-c" (Some 1) None) db_abc
  = (Return (Many [from_orm carol]), db_abc).
Proof. repeat split. Qed.

(** ** What the responses carry *)

Lemma from_orm_password (row : UserModel.t) :
  User.password (from_orm row) = UserModel.password row.
Proof. reflexivity. Qed.

(** C10: every user in a successful response of any route (create, list,
    fetch one, referral lookup) is the serialisation [from_orm] of a row
    stored in [users] when the route returns, and its [password] field is
    the stored password of that row, verbatim; the list route returns such
    a record for every stored user. *)
Theorem responses_expose_password
    (env : Env) (req : Request) (d d' : Database) (resp : Response) :
  app env req d = (Return resp, d') ->
  (forall x, In x (response_users resp) ->
     exists row, In row (users d') /\ x = from_orm row /\
                 User.password x = UserModel.password row) /\
  (req = GET_getall_users ->
   forall row, In row (users d) ->
     exists x, In x (response_users resp) /\
               User.password x = UserModel.password row).
Proof.
  intro H.
  assert (Hrows : exists rows,
             response_users resp = map from_orm rows /\
             forall row, In row rows -> In row (users d')).
  { destruct req as [user| |user_id|user_id page per_page].
    - rewrite app_POST_users in H.
      destruct (find _ (users d)); [discriminate|]. simpl in H.
      destruct (violates _ _); [discriminate|].
      destruct (lookup _ _) as [r|] eqn:E; [|discriminate].
      injection H as <- <-. exists [r]. split; [reflexivity|].
      intros row [<-|[]]. now apply lookup_Some in E.
    - rewrite app_GET_getall_users in H. injection H as <- <-.
      exists (users d). split; [reflexivity | auto].
    - rewrite app_GET_users in H.
      destruct (lookup d user_id) as [r|] eqn:E; [|discriminate].
      injection H as <- <-. exists [r]. split; [reflexivity|].
      intros row [<-|[]]. now apply lookup_Some in E.
    - rewrite app_GET_referrals in H.
      destruct (lookup d user_id) as [r|]; [|discriminate]. simpl in H.
      destruct (default 20 per_page =? 0); [discriminate|].
      destruct ((default 1 page <? 1) || _); [discriminate|].
      injection H as <- <-. eexists. split; [reflexivity|].
      intros row Hin. apply In_py_slice in Hin.
      now apply In_matches in Hin. }
  destruct Hrows as [rows [Hresp Hsub]]. split.
  - intros x Hx. rewrite Hresp in Hx. apply in_map_iff in Hx.
    destruct Hx as [row [<- Hin]]. exists row.
    repeat split. now apply Hsub.
  - intros -> row Hin. rewrite app_GET_getall_users in H.
    injection H as <- <-. exists (from_orm row).
    split; [now apply in_map | reflexivity].
Qed.

Lemma responses_expose_password_witness :
  app env_d (GET_referrals "id-a" None None) db_ab
  = (Return (Many [from_orm alice; from_orm bob]), db_ab) /\
  exists row, In row (users db_ab) /\ from_orm bob = from_orm row /\
              User.password (from_orm bob) = UserModel.password row.
Proof.
  assert (H : app env_d (GET_referrals "id-a" None None) db_ab
              = (Return (Many [from_orm alice; from_orm bob]), db_ab))
    by reflexivity.
  split; [exact H|].
  destruct (@responses_expose_password env_d _ db_ab db_ab _ H) as [Hall _].
  apply Hall. simpl. auto.
Defined.

(** * Further properties of the handlers *)

(** ** The outcomes of [create_user] *)

Lemma find_existsb {A} (p : A -> bool) (l : list A) :
  existsb p l = match find p l with Some _ => true | None => false end.
Proof.
  induction l as [|x l IH]; simpl; [reflexivity|].
  destruct (p x); [reflexivity | exact IH].
Qed.

Lemma existsb_orb {A} (p q : A -> bool) (l : list A) :
  existsb (fun x => p x || q x) l = existsb p l || existsb q l.
Proof.
  induction l as [|x l IH]; simpl; [reflexivity|].
  rewrite IH. destruct (p x), (q x), (existsb p l); reflexivity.
Qed.

Lemma violates_new_row (env : Env) (user : UserCreate.t) (d : Database) :
  violates (new_row env user) (users d)
  = id_taken d (uuid4 env) || email_taken d (UserCreate.email user).
Proof. unfold violates. now rewrite existsb_orb. Qed.

Lemma id_taken_false (d : Database) (user_id : string) :
  id_taken d user_id = false <-> lookup d user_id = None.
Proof.
  unfold id_taken, lookup. rewrite find_existsb.
  destruct (find _ _); split; intro; congruence.
Qed.

Lemma email_taken_false (d : Database) (email : string) :
  email_taken d email = false <->
  forall r, In r (users d) -> UserModel.email r <> email.
Proof.
  unfold email_taken. split.
  - intros H r Hin He.
    assert (existsb (fun r => String.eqb (UserModel.email r) email) (users d)
            = true); [|congruence].
    apply existsb_exists. exists r. split; [exact Hin|].
    now apply String.eqb_eq.
  - intro H. destruct (existsb _ _) eqn:E; [|reflexivity].
    apply existsb_exists in E. destruct E as [r [Hin He]].
    apply String.eqb_eq in He. now elim (H r Hin).
Qed.

Lemma lookup_insert_fresh (d : Database) (row : UserModel.t) :
  lookup d (UserModel.id row) = None ->
  lookup (insert_user row d) (UserModel.id row) = Some row.
Proof.
  unfold lookup, insert_user. simpl. intro H.
  rewrite find_app_None by exact H. simpl. now rewrite String.eqb_refl.
Qed.

Lemma app_POST_users_decided
    (env : Env) (user : UserCreate.t) (d : Database) :
  app env (POST_users user) d =
  if email_taken d (UserCreate.email user)
  then (HTTPException 400 "User with this email already exists", d)
  else if id_taken d (uuid4 env)
  then (Uncaught IntegrityError, d)
  else (Return (One (from_orm (new_row env user))),
        insert_user (new_row env user) d).
Proof.
  rewrite app_POST_users. unfold email_taken at 1. rewrite find_existsb.
  destruct (find _ (users d)) as [r|] eqn:E; [reflexivity|].
  simpl. rewrite violates_new_row.
  assert (Hem : email_taken d (UserCreate.email user) = false).
  { unfold email_taken. rewrite find_existsb. now rewrite E. }
  rewrite Hem, orb_false_r.
  destruct (id_taken d (uuid4 env)) eqn:Hid; [reflexivity|].
  apply id_taken_false in Hid.
  pose proof (lookup_insert_fresh d (new_row env user) Hid) as Hrow.
  simpl in Hrow. now rewrite Hrow.
Qed.

(** X1: [POST /users/] has exactly three outcomes, decided by two tests on
    the table: 400 when the email is stored already; otherwise an uncaught
    [IntegrityError] when the identifier drawn by [uuid4()] is stored
    already; otherwise the new record is returned and appended to [users].
    The first two leave the database as it was, and the
    [InvalidRequestError] of [db.refresh] never occurs. *)
Theorem create_user_outcomes (env : Env) (user : UserCreate.t) (d : Database) :
  app env (POST_users user) d =
  (if email_taken d (UserCreate.email user)
   then (HTTPException 400 "User with this email already exists", d)
   else if id_taken d (uuid4 env)
   then (Uncaught IntegrityError, d)
   else (Return (One (from_orm (new_row env user))),
         insert_user (new_row env user) d)) /\
  fst (app env (POST_users user) d) <> Uncaught InvalidRequestError.
Proof.
  split; [apply app_POST_users_decided|].
  rewrite app_POST_users_decided.
  destruct (email_taken d _); [discriminate|].
  destruct (id_taken d _); discriminate.
Qed.

(** X2: a request that does not return a response leaves the database as
    it was: no route writes before it fails. *)
Theorem failed_request_changes_nothing
    (env : Env) (req : Request) (d : Database) :
  (forall resp, fst (app env req d) <> Return resp) ->
  snd (app env req d) = d.
Proof.
  intro Hfail.
  destruct (app_database env req d) as [H|[user [-> H]]]; [exact H|].
  exfalso. revert Hfail. rewrite app_POST_users_decided.
  rewrite app_POST_users_decided in H.
  destruct (email_taken d _); [|destruct (id_taken d _)]; intro Hfail.
  - simpl in H. destruct d as [us rs]. unfold insert_user in H. simpl in H.
    injection H as H. apply (f_equal (@List.length _)) in H.
    rewrite length_app in H. simpl in H. lia.
  - simpl in H. destruct d as [us rs]. unfold insert_user in H. simpl in H.
    injection H as H. apply (f_equal (@List.length _)) in H.
    rewrite length_app in H. simpl in H. lia.
  - now apply (Hfail (One (from_orm (new_row env user)))).
Qed.

Lemma failed_request_changes_nothing_witness :
  (forall resp, fst (app env_d (POST_users alice_again) db_ab) <> Return resp)
  /\ snd (app env_d (POST_users alice_again) db_ab) = db_ab.
Proof.
  assert (H : forall resp,
             fst (app env_d (POST_users alice_again) db_ab) <> Return resp)
    by (intro resp; vm_compute; discriminate).
  split; [exact H|].
  exact (@failed_request_changes_nothing env_d (POST_users alice_again) db_ab H).
Defined.

(** X3: the HTTP errors of each route.  [POST /users/] raises only 400
    "User with this email already exists", and only when the email is
    stored; [GET /getall_users/] raises none; [GET /users/{id}] raises only
    404 "User not found", and only when no row has the identifier;
    [GET /referrals/{id}] raises only 404 "Invalid page number", and only
    for an identifier that is stored. *)
Theorem http_errors_by_route
    (env : Env) (req : Request) (d : Database)
    (status_code : Z) (detail : string) :
  fst (app env req d) = HTTPException status_code detail ->
  match req with
  | POST_users user =>
      status_code = 400 /\ detail = "User with this email already exists" /\
      email_taken d (UserCreate.email user) = true
  | GET_getall_users => False
  | GET_users user_id =>
      status_code = 404 /\ detail = "User not found" /\
      lookup d user_id = None
  | GET_referrals user_id _ _ =>
      status_code = 404 /\ detail = "Invalid page number" /\
      lookup d user_id <> None
  end.
Proof.
  destruct req as [user| |user_id|user_id page per_page].
  - rewrite app_POST_users_decided.
    destruct (email_taken d _); [|destruct (id_taken d _)]; simpl;
      intro H; try discriminate.
    injection H as <- <-. repeat split.
  - rewrite app_GET_getall_users. discriminate.
  - rewrite app_GET_users.
    destruct (lookup d user_id); simpl; intro H; [discriminate|].
    injection H as <- <-. repeat split.
  - rewrite app_GET_referrals.
    destruct (lookup d user_id); [|discriminate]. simpl.
    destruct (default 20 per_page =? 0); [discriminate|].
    destruct ((default 1 page <? 1) || _); [|discriminate].
    simpl. intro H. injection H as <- <-. repeat split. discriminate.
Qed.

Lemma http_errors_by_route_witness :
  fst (app env_d (GET_users "id-z") db_ab)
  = HTTPException 404 "User not found" /\
  lookup db_ab "id-z" = None.
Proof.
  assert (H : fst (app env_d (GET_users "id-z") db_ab)
              = HTTPException 404 "User not found") by reflexivity.
  split; [exact H|].
  destruct (@http_errors_by_route env_d (GET_users "id-z") db_ab 404
              "User not found" H) as [_ [_ Hnone]].
  exact Hnone.
Defined.

(** X4: the uncaught exceptions of each route.  [GET /getall_users/] and
    [GET /users/{id}] never end in one; [POST /users/] only in
    [IntegrityError], when the email is new and the drawn identifier is
    stored already; [GET /referrals/{id}] only in [TypeError], when no row
    has the identifier, or in [ZeroDivisionError], when a row has it and
    the page size is 0. *)
Theorem uncaught_errors_by_route
    (env : Env) (req : Request) (d : Database) (e : PyError) :
  fst (app env req d) = Uncaught e ->
  match req with
  | POST_users user =>
      e = IntegrityError /\ id_taken d (uuid4 env) = true /\
      email_taken d (UserCreate.email user) = false
  | GET_getall_users => False
  | GET_users _ => False
  | GET_referrals user_id _ per_page =>
      (e = TypeError /\ lookup d user_id = None) \/
      (e = ZeroDivisionError /\ default 20 per_page = 0 /\
       lookup d user_id <> None)
  end.
Proof.
  destruct req as [user| |user_id|user_id page per_page].
  - rewrite app_POST_users_decided.
    destruct (email_taken d _); [discriminate|].
    destruct (id_taken d _); simpl; intro H; [|discriminate].
    injection H as <-. repeat split.
  - rewrite app_GET_getall_users. discriminate.
  - rewrite app_GET_users. destruct (lookup d user_id); discriminate.
  - rewrite app_GET_referrals.
    destruct (lookup d user_id); simpl.
    + destruct (Z.eqb_spec (default 20 per_page) 0) as [E|E].
      * intro H. injection H as <-. right. repeat split; [exact E|].
        discriminate.
      * destruct ((default 1 page <? 1) || _); discriminate.
    + intro H. injection H as <-. left. split; reflexivity.
Qed.

Lemma uncaught_errors_by_route_witness :
  fst (app env_d (GET_referrals "id-a" None (Some 0)) db_ab)
  = Uncaught ZeroDivisionError /\
  ((ZeroDivisionError = TypeError /\ lookup db_ab "id-a" = None) \/
   (ZeroDivisionError = ZeroDivisionError /\ default 20 (Some 0) = 0 /\
    lookup db_ab "id-a" <> None)).
Proof.
  assert (H : fst (app env_d (GET_referrals "id-a" None (Some 0)) db_ab)
              = Uncaught ZeroDivisionError) by reflexivity.
  split; [exact H|].
  exact (@uncaught_errors_by_route env_d (GET_referrals "id-a" None (Some 0))
           db_ab ZeroDivisionError H).
Defined.

(** ** Unique identifiers and emails *)

Lemma NoDup_map_snoc {A B} (f : A -> B) (l : list A) (x : A) :
  NoDup (map f l) -> (forall y, In y l -> f y <> f x) ->
  NoDup (map f (l ++ [x])).
Proof.
  intros Hl Hx. rewrite map_app. apply NoDup_app.
  - exact Hl.
  - simpl. constructor; [intros [] | constructor].
  - intros b Hb [<-|[]]. apply in_map_iff in Hb.
    destruct Hb as [y [Hy Hin]]. now apply (Hx y Hin).
Qed.

Lemma id_taken_false_forall (d : Database) (user_id : string) :
  id_taken d user_id = false ->
  forall r, In r (users d) -> UserModel.id r <> user_id.
Proof. intro H. apply lookup_None. now apply id_taken_false. Qed.

Lemma unique_keys_insert (d : Database) (row : UserModel.t) :
  unique_keys d ->
  id_taken d (UserModel.id row) = false ->
  email_taken d (UserModel.email row) = false ->
  unique_keys (insert_user row d).
Proof.
  intros [Hid Hem] Hi He. split; simpl; apply NoDup_map_snoc; try assumption.
  - now apply id_taken_false_forall.
  - now apply email_taken_false.
Qed.

Lemma unique_keys_preserved (env : Env) (req : Request) (d : Database) :
  unique_keys d -> unique_keys (snd (app env req d)).
Proof.
  intro Hd.
  destruct (app_database env req d) as [->|[user [-> _]]]; [exact Hd|].
  rewrite app_POST_users_decided.
  destruct (email_taken d _) eqn:He; [exact Hd|].
  destruct (id_taken d _) eqn:Hi; [exact Hd|].
  simpl. now apply unique_keys_insert.
Qed.

Lemma unique_keys_db_ab : unique_keys db_ab.
Proof.
  split; simpl; repeat constructor; simpl; intuition discriminate.
Qed.

Lemma find_unique {A} (f : A -> string) (l : list A) (r : A) :
  NoDup (map f l) -> In r l ->
  find (fun x => String.eqb (f x) (f r)) l = Some r.
Proof.
  induction l as [|x l IH]; simpl; intros Hnd Hin; [contradiction|].
  apply NoDup_cons_iff in Hnd. destruct Hnd as [Hx Hl].
  destruct Hin as [->|Hin].
  - now rewrite String.eqb_refl.
  - destruct (String.eqb_spec (f x) (f r)) as [E|E].
    + exfalso. apply Hx. rewrite E. now apply in_map.
    + now apply IH.
Qed.

(** X5: when the identifiers of [users] are pairwise distinct, every stored
    user is fetched by its own identifier: [GET /users/{id}] on the [id] of
    a stored row returns that row, with all its fields, and changes
    nothing. *)
Theorem read_user_returns_stored_row
    (env : Env) (d : Database) (row : UserModel.t) :
  NoDup (map UserModel.id (users d)) ->
  In row (users d) ->
  app env (GET_users (UserModel.id row)) d = (Return (One (from_orm row)), d).
Proof.
  intros Hnd Hin. rewrite app_GET_users. unfold lookup.
  now rewrite (find_unique UserModel.id (users d) row Hnd Hin).
Qed.

Lemma read_user_returns_stored_row_witness :
  NoDup (map UserModel.id (users db_ab)) /\ In bob (users db_ab) /\
  app env_d (GET_users "id-b") db_ab = (Return (One (from_orm bob)), db_ab).
Proof.
  assert (Hnd : NoDup (map UserModel.id (users db_ab)))
    by exact (proj1 unique_keys_db_ab).
  assert (Hin : In bob (users db_ab)) by (simpl; auto).
  split; [exact Hnd|]. split; [exact Hin|].
  exact (@read_user_returns_stored_row env_d db_ab bob Hnd Hin).
Defined.

(** ** Runs of the service *)

Lemma serve_appends (env : Env) (req : Request) (d : Database) :
  exists created,
    users (snd (app env req d)) = users d ++ created /\
    referrals (snd (app env req d)) = referrals d /\
    (List.length created <= posts [(env, req)])%nat /\
    forall r, In r created -> UserModel.timestamp r <> None.
Proof.
  destruct (app_database env req d) as [->|[user [-> ->]]].
  - exists []. rewrite app_nil_r. repeat split; [apply Nat.le_0_l|].
    intros r [].
  - exists [new_row env user]. repeat split.
    + simpl. apply Nat.le_refl.
    + intros r [<-|[]]. discriminate.
Qed.

Lemma posts_cons (call : Env * Request) (calls : list (Env * Request)) :
  posts (call :: calls) = (posts [call] + posts calls)%nat.
Proof.
  unfold posts. simpl. destruct (snd call); reflexivity.
Qed.

(** X6: over any sequence of requests, [users] only grows at its end and
    [referrals] is never written: the table after the run is the table
    before it followed by the rows created meanwhile, at most one for each
    [POST /users/], each with a timestamp; distinct identifiers and emails
    stay distinct. *)
Theorem run_appends_users (calls : list (Env * Request)) (d : Database) :
  unique_keys d ->
  unique_keys (run calls d) /\
  referrals (run calls d) = referrals d /\
  exists created,
    users (run calls d) = users d ++ created /\
    (List.length created <= posts calls)%nat /\
    forall r, In r created -> UserModel.timestamp r <> None.
Proof.
  revert d. induction calls as [|[env req] calls IH]; intros d Hd.
  - simpl. repeat split; try exact (proj1 Hd); try exact (proj2 Hd).
    exists []. rewrite app_nil_r. repeat split; [apply Nat.le_0_l|].
    intros r [].
  - change (run ((env, req) :: calls) d)
      with (run calls (snd (app env req d))).
    destruct (serve_appends env req d) as [c1 [Hu1 [Hr1 [Hl1 Ht1]]]].
    destruct (IH _ (unique_keys_preserved env req Hd))
      as [Huk [Hr [c2 [Hu2 [Hl2 Ht2]]]]].
    split; [exact Huk|]. split; [now rewrite Hr|].
    exists (c1 ++ c2). split; [|split].
    + now rewrite Hu2, Hu1, app_assoc.
    + rewrite length_app, posts_cons. lia.
    + intros r Hin. apply in_app_or in Hin.
      destruct Hin as [Hin|Hin]; [now apply Ht1 | now apply Ht2].
Qed.

Lemma unique_keys_empty_db : unique_keys empty_db.
Proof. split; simpl; constructor. Qed.

Lemma run_appends_users_witness :
  unique_keys empty_db /\
  unique_keys
    (run [(env_d, POST_users dave); (env_d, POST_users dave)] empty_db) /\
  referrals
    (run [(env_d, POST_users dave); (env_d, POST_users dave)] empty_db) = [].
Proof.
  split; [exact unique_keys_empty_db|].
  destruct (@run_appends_users
              [(env_d, POST_users dave); (env_d, POST_users dave)]
              empty_db unique_keys_empty_db) as [Huk [Hr _]].
  split; [exact Huk | exact Hr].
Defined.

(** ** The referral lookup: a negative page size *)

Lemma page_count_negative_one (per_page : Z) :
  per_page < 0 -> page_count 1 per_page = 1.
Proof.
  intro Hp. unfold page_count.
  replace (1 + per_page - 1) with per_page by lia.
  apply Z_div_same_full. lia.
Qed.

Lemma page_count_negative_many (m per_page : Z) :
  2 <= m -> per_page < 0 -> page_count m per_page <= 0.
Proof.
  intros Hm Hp. unfold page_count.
  pose proof (Z.div_mod (m + per_page - 1) per_page ltac:(lia)) as E.
  pose proof (Z.mod_neg_bound (m + per_page - 1) per_page Hp) as B.
  nia.
Qed.

Lemma py_slice_negative_stop {A} (l : list A) (stop : Z) :
  stop < 0 -> stop + Z.of_nat (List.length l) <= 0 -> py_slice l 0 stop = [].
Proof.
  intros H1 H2. unfold py_slice, slice_index.
  destruct (Z.ltb_spec stop 0); [|lia].
  change (0 <? 0) with false. cbv iota.
  replace (Z.max 0 (stop + Z.of_nat (List.length l))
           - Z.min 0 (Z.of_nat (List.length l))) with 0 by lia.
  reflexivity.
Qed.

(** X7: with a negative page size no user is ever returned.  For an
    existing user and [per_page < 0], the lookup answers 200 with an empty
    list when page 1 is asked and the user is the only one with its code,
    and 404 "Invalid page number" in every other case. *)
Theorem read_referral_negative_page_size
    (env : Env) (d : Database) (user_id : string) (u : UserModel.t)
    (page per_page : Z) :
  lookup d user_id = Some u ->
  per_page < 0 ->
  app env (GET_referrals user_id (Some page) (Some per_page)) d =
  if (page =? 1) && (match_count d u =? 1)
  then (Return (Many []), d)
  else (HTTPException 404 "Invalid page number", d).
Proof.
  intros Hu Hp. pose proof (referral_nonempty _ _ Hu) as Hm.
  rewrite app_GET_referrals, Hu. simpl.
  destruct (Z.eqb_spec per_page 0); [lia|].
  fold (match_count d u) in *.
  fold (page_count (match_count d u) per_page).
  destruct (Z.eqb_spec (match_count d u) 1) as [E1|E1].
  - rewrite E1, page_count_negative_one by exact Hp.
    destruct (Z.eqb_spec page 1) as [->|Hpage]; simpl.
    + replace (Z.min per_page 1) with per_page by lia.
      rewrite py_slice_negative_stop; [reflexivity | exact Hp |].
      unfold match_count in E1. lia.
    + destruct (Z.ltb_spec page 1); [reflexivity|].
      destruct (Z.gtb_spec page 1); [reflexivity | lia].
  - pose proof (@page_count_negative_many (match_count d u) per_page
                  ltac:(lia) Hp) as Htp.
    rewrite andb_false_r.
    destruct (Z.ltb_spec page 1); [reflexivity|].
    destruct (Z.gtb_spec page (page_count (match_count d u) per_page));
      [reflexivity | lia].
Qed.

Lemma read_referral_negative_page_size_witness :
  lookup db_ab "id-a" = Some alice /\ -5 < 0 /\
  app env_d (GET_referrals "id-a" (Some 1) (Some (-5))) db_ab
  = (HTTPException 404 "Invalid page number", db_ab).
Proof.
  assert (Hu : lookup db_ab "id-a" = Some alice) by reflexivity.
  assert (Hp : -5 < 0) by lia.
  split; [exact Hu|]. split; [exact Hp|].
  exact (@read_referral_negative_page_size env_d db_ab "id-a" alice 1 (-5)
           Hu Hp).
Defined.

(** ** The referral lookup: the pages together *)

Section Chunks.
Context {A : Type}.
Implicit Types (l : list A).

Lemma firstn_plus (a b : nat) l :
  firstn (a + b) l = firstn a l ++ firstn b (skipn a l).
Proof.
  revert l. induction a as [|a IH]; intro l; [reflexivity|].
  destruct l as [|x l]; simpl.
  - now rewrite firstn_nil.
  - now rewrite IH.
Qed.

Lemma chunks_concat (p n : nat) l :
  flat_map (fun k => firstn p (skipn (k * p) l)) (seq 0 n)
  = firstn (n * p) l.
Proof.
  induction n as [|n IH]; [reflexivity|].
  rewrite seq_S, flat_map_app, IH. simpl.
  rewrite app_nil_r, (Nat.add_comm p (n * p)). symmetry. apply firstn_plus.
Qed.

Lemma firstn_beyond (n p : nat) l :
  (List.length l <= n)%nat -> (List.length l <= p)%nat ->
  firstn n l = firstn p l.
Proof. intros Hn Hp. now rewrite !firstn_all2. Qed.

Lemma page_rows_chunk (per_page : Z) (k : nat) l :
  1 <= per_page ->
  page_rows l (Z.of_nat k * per_page)
    (Z.min (Z.of_nat k * per_page + per_page) (Z.of_nat (List.length l)))
  = firstn (Z.to_nat per_page) (skipn (k * Z.to_nat per_page) l).
Proof.
  intro Hp. unfold page_rows.
  replace (Z.to_nat (Z.of_nat k * per_page)) with (k * Z.to_nat per_page)%nat
    by nia.
  destruct (Z.min_spec (Z.of_nat k * per_page + per_page)
              (Z.of_nat (List.length l))) as [[Hlt ->]|[Hge ->]].
  - f_equal. lia.
  - apply firstn_beyond; rewrite length_skipn; nia.
Qed.
End Chunks.

Lemma flat_map_ext_in {A B} (f g : A -> list B) (l : list A) :
  (forall a, In a l -> f a = g a) -> flat_map f l = flat_map g l.
Proof.
  induction l as [|x l IH]; intro H; simpl; [reflexivity|].
  rewrite (H x (or_introl eq_refl)), IH; [reflexivity|].
  intros a Ha. apply H. now right.
Qed.

Lemma flat_map_map_out {A B C} (g : B -> C) (f : A -> list B) (l : list A) :
  flat_map (fun a => map g (f a)) l = map g (flat_map f l).
Proof.
  induction l as [|x l IH]; simpl; [reflexivity|].
  now rewrite map_app, IH.
Qed.

(** X8: for an existing user and [per_page >= 1], the answers to pages 1,
    2, ..., up to the page count, put one after the other, are the users
    with the code of that user, each exactly as often as it is stored and
    in table order: paging loses and repeats nothing. *)
Theorem referral_pages_cover_selection
    (env : Env) (d : Database) (user_id : string) (u : UserModel.t)
    (per_page : Z) :
  lookup d user_id = Some u ->
  1 <= per_page ->
  flat_map
    (fun k => returned_users
                (app env (GET_referrals user_id (Some (Z.of_nat k + 1))
                            (Some per_page)) d))
    (seq 0 (Z.to_nat (page_count (match_count d u) per_page)))
  = map from_orm (matches d (UserModel.referral_code u)).
Proof.
  intros Hu Hpp.
  pose proof (page_count_bounds (match_count d u) Hpp) as B.
  pose proof (referral_first_page_exists _ _ Hu Hpp) as Hfirst.
  rewrite flat_map_ext_in
    with (g := fun k => map from_orm
                 (firstn (Z.to_nat per_page)
                    (skipn (k * Z.to_nat per_page)
                       (matches d (UserModel.referral_code u))))).
  - rewrite flat_map_map_out, chunks_concat. f_equal.
    apply firstn_all2. apply Nat2Z.inj_le.
    rewrite Nat2Z.inj_mul, !Z2Nat.id by lia.
    unfold match_count in *. lia.
  - intros k Hk. apply in_seq in Hk.
    rewrite (@referral_page_in_range env d user_id u per_page Hu Hpp
               (Z.of_nat k + 1)) by lia.
    unfold returned_users. simpl.
    replace (Z.of_nat k + 1 - 1) with (Z.of_nat k) by lia.
    unfold match_count. now rewrite page_rows_chunk.
Qed.

Lemma referral_pages_cover_selection_witness :
  lookup db_ab "id-a" = Some alice /\ 1 <= 1 /\
  returned_users (app env_d (GET_referrals "id-a" (Some 1) (Some 1)) db_ab)
  ++ returned_users (app env_d (GET_referrals "id-a" (Some 2) (Some 1)) db_ab)
  = [from_orm alice; from_orm bob].
Proof.
  assert (Hu : lookup db_ab "id-a" = Some alice) by reflexivity.
  assert (Hpp : 1 <= 1) by lia.
  split; [exact Hu|]. split; [exact Hpp|].
  pose proof (@referral_pages_cover_selection env_d db_ab "id-a" alice 1
                Hu Hpp) as H.
  exact H.
Defined.

(** X9: for an existing user, page 1 never fails when [per_page >= 1]: it
    returns the first [per_page] users with the code of that user (all of
    them when there are fewer), a list that is not empty; so the request
    with the default page and page size returns the first 20. *)
Theorem first_page_always_answers
    (env : Env) (d : Database) (user_id : string) (u : UserModel.t)
    (per_page : Z) :
  lookup d user_id = Some u ->
  1 <= per_page ->
  let referral := matches d (UserModel.referral_code u) in
  app env (GET_referrals user_id (Some 1) (Some per_page)) d
  = (Return (Many (map from_orm (firstn (Z.to_nat per_page) referral))), d) /\
  firstn (Z.to_nat per_page) referral <> [] /\
  app env (GET_referrals user_id None None) d
  = (Return (Many (map from_orm (firstn 20 referral))), d).
Proof.
  intros Hu Hpp referral.
  assert (Hpage : forall pp, 1 <= pp ->
            app env (GET_referrals user_id (Some 1) (Some pp)) d
            = (Return (Many (map from_orm (firstn (Z.to_nat pp) referral))),
               d)).
  { intros pp Hp.
    pose proof (referral_first_page_exists _ _ Hu Hp) as Hfirst.
    rewrite (@referral_page_in_range env d user_id u pp Hu Hp 1) by lia.
    change ((1 - 1) * pp) with (Z.of_nat 0 * pp).
    unfold match_count. now rewrite page_rows_chunk. }
  split; [now apply Hpage|]. split.
  - pose proof (referral_nonempty _ _ Hu) as Hm. fold referral in Hm.
    destruct referral as [|x l]; [simpl in Hm; lia|].
    destruct (Z.to_nat per_page) eqn:E; [lia | discriminate].
  - exact (Hpage 20 ltac:(lia)).
Qed.

Lemma first_page_always_answers_witness :
  lookup db_abc "id-b" = Some bob /\ 1 <= 1 /\
  app env_d (GET_referrals "id-b" (Some 1) (Some 1)) db_abc
  = (Return (Many [from_orm alice]), db_abc).
Proof.
  assert (Hu : lookup db_abc "id-b" = Some bob) by reflexivity.
  assert (Hpp : 1 <= 1) by lia.
  split; [exact Hu|]. split; [exact Hpp|].
  exact (proj1 (@first_page_always_answers env_d db_abc "id-b" bob 1 Hu Hpp)).
Defined.

(** X10: the referral lookup sees the code only.  Two stored users with
    the same [referral_code] (null included) get the same answer to every
    page request, successful or not: the list does not tell the referrer
    from the referred. *)
Theorem referral_answer_depends_on_code
    (env : Env) (d : Database) (id1 id2 : string) (u1 u2 : UserModel.t)
    (page per_page : option Z) :
  lookup d id1 = Some u1 ->
  lookup d id2 = Some u2 ->
  UserModel.referral_code u1 = UserModel.referral_code u2 ->
  app env (GET_referrals id1 page per_page) d
  = app env (GET_referrals id2 page per_page) d.
Proof.
  intros H1 H2 Hc. rewrite !app_GET_referrals, H1, H2, Hc. reflexivity.
Qed.

Lemma referral_answer_depends_on_code_witness :
  lookup db_abc "id-a" = Some alice /\ lookup db_abc "id-b" = Some bob /\
  UserModel.referral_code alice = UserModel.referral_code bob /\
  app env_d (GET_referrals "id-a" (Some 2) (Some 1)) db_abc
  = app env_d (GET_referrals "id-b" (Some 2) (Some 1)) db_abc.
Proof.
  assert (H1 : lookup db_abc "id-a" = Some alice) by reflexivity.
  assert (H2 : lookup db_abc "id-b" = Some bob) by reflexivity.
  assert (Hc : UserModel.referral_code alice = UserModel.referral_code bob)
    by reflexivity.
  split; [exact H1|]. split; [exact H2|]. split; [exact Hc|].
  exact (@referral_answer_depends_on_code env_d db_abc "id-a" "id-b"
           alice bob (Some 2) (Some 1) H1 H2 Hc).
Defined.

(** ** Creation followed by the other routes *)

Lemma created_inversion
    (env : Env) (user : UserCreate.t) (d d' : Database) (resp : Response) :
  app env (POST_users user) d = (Return resp, d') ->
  resp = One (from_orm (new_row env user)) /\
  d' = insert_user (new_row env user) d /\
  email_taken d (UserCreate.email user) = false /\
  id_taken d (uuid4 env) = false.
Proof.
  rewrite app_POST_users_decided.
  destruct (email_taken d _); [discriminate|].
  destruct (id_taken d _); [discriminate|].
  intro H. injection H as <- <-. repeat split.
Qed.

(** X11: after a successful [POST /users/], [GET /getall_users/] returns
    the users it would have returned before, in the same order, followed by
    the created user. *)
Theorem created_user_is_listed_last
    (env env' : Env) (user : UserCreate.t) (d d' : Database)
    (created : User.t) :
  app env (POST_users user) d = (Return (One created), d') ->
  app env' GET_getall_users d'
  = (Return (Many (returned_users (app env' GET_getall_users d)
                   ++ [created])), d').
Proof.
  intro H. apply created_inversion in H.
  destruct H as [Hresp [-> _]]. injection Hresp as ->.
  rewrite !app_GET_getall_users. unfold returned_users. simpl.
  now rewrite map_app.
Qed.

Lemma created_user_is_listed_last_witness :
  app env_d (POST_users dave) db_ab
  = (Return (One (from_orm (new_row env_d dave))),
     insert_user (new_row env_d dave) db_ab) /\
  app env_d GET_getall_users (insert_user (new_row env_d dave) db_ab)
  = (Return (Many [from_orm alice; from_orm bob;
                   from_orm (new_row env_d dave)]),
     insert_user (new_row env_d dave) db_ab).
Proof.
  assert (H : app env_d (POST_users dave) db_ab
              = (Return (One (from_orm (new_row env_d dave))),
                 insert_user (new_row env_d dave) db_ab)) by reflexivity.
  split; [exact H|].
  exact (@created_user_is_listed_last env_d env_d dave db_ab _ _ H).
Defined.

Lemma matches_insert (d : Database) (row : UserModel.t)
    (code : option string) :
  matches (insert_user row d) code
  = matches d code
    ++ (if column_eq (UserModel.referral_code row) code then [row] else []).
Proof.
  unfold matches, insert_user. simpl. rewrite filter_app. simpl.
  destruct (column_eq _ code); reflexivity.
Qed.

(** X12: a successful [POST /users/] puts the created user at the end of
    the selection for its own [referral_code] and leaves the selection for
    every other code as it was; the lookup for the created identifier then
    returns, on a page 1 large enough, the earlier users with that code
    followed by the created user. *)
Theorem created_user_joins_its_code
    (env env' : Env) (user : UserCreate.t) (d d' : Database)
    (created : User.t) (per_page : Z) :
  app env (POST_users user) d = (Return (One created), d') ->
  let code := UserCreate.referral_code user in
  matches d' code = matches d code ++ [new_row env user] /\
  (forall other, other <> code -> matches d' other = matches d other) /\
  (Z.of_nat (List.length (matches d code)) + 1 <= per_page ->
   app env' (GET_referrals (User.id created) (Some 1) (Some per_page)) d'
   = (Return (Many (map from_orm (matches d code) ++ [created])), d')).
Proof.
  intros H code. apply created_inversion in H.
  destruct H as [Hresp [-> [_ Hid]]]. injection Hresp as ->.
  assert (Hsel : matches (insert_user (new_row env user) d) code
                 = matches d code ++ [new_row env user]).
  { rewrite matches_insert. simpl UserModel.referral_code.
    now rewrite column_eq_refl. }
  split; [exact Hsel|]. split.
  - intros other Hne. rewrite matches_insert. simpl UserModel.referral_code.
    destruct (column_eq (UserCreate.referral_code user) other) eqn:E.
    + apply column_eq_iff in E. now elim Hne.
    + apply app_nil_r.
  - intro Hpp. apply id_taken_false in Hid.
    pose proof (lookup_insert_fresh d (new_row env user) Hid) as Hrow.
    assert (Hp1 : 1 <= per_page) by lia.
    change (User.id (from_orm (new_row env user)))
      with (UserModel.id (new_row env user)).
    rewrite (@referral_single_page env' _ _ _ per_page Hrow Hp1).
    + simpl UserModel.referral_code. fold code.
      now rewrite Hsel, map_app.
    + unfold match_count. simpl UserModel.referral_code. fold code.
      rewrite Hsel, length_app. simpl. lia.
Qed.

Lemma created_user_joins_its_code_witness :
  app env_d (POST_users dave) db_abc
  = (Return (One (from_orm (new_row env_d dave))),
     insert_user (new_row env_d dave) db_abc) /\
  app env_d (GET_referrals "id-d" (Some 1) (Some 3))
      (insert_user (new_row env_d dave) db_abc)
  = (Return (Many [from_orm alice; from_orm bob;
                   from_orm (new_row env_d dave)]),
     insert_user (new_row env_d dave) db_abc).
Proof.
  assert (H : app env_d (POST_users dave) db_abc
              = (Return (One (from_orm (new_row env_d dave))),
                 insert_user (new_row env_d dave) db_abc)) by reflexivity.
  split; [exact H|].
  destruct (@created_user_joins_its_code env_d env_d dave db_abc _ _ 3 H)
    as [_ [_ Hpage]].
  apply Hpage. vm_compute. discriminate.
Defined.

Lemma run_extends (calls : list (Env * Request)) (d : Database) :
  exists created, users (run calls d) = users d ++ created.
Proof.
  revert d. induction calls as [|[env req] calls IH]; intro d.
  - exists []. simpl. now rewrite app_nil_r.
  - change (run ((env, req) :: calls) d)
      with (run calls (snd (app env req d))).
    destruct (serve_appends env req d) as [c1 [Hu1 _]].
    destruct (IH (snd (app env req d))) as [c2 Hu2].
    exists (c1 ++ c2). now rewrite Hu2, Hu1, app_assoc.
Qed.

Lemma email_taken_after_run
    (calls : list (Env * Request)) (d : Database) (email : string) :
  email_taken d email = true -> email_taken (run calls d) email = true.
Proof.
  intro H. unfold email_taken in *.
  destruct (run_extends calls d) as [created ->].
  rewrite existsb_app, H. reflexivity.
Qed.

(** X13: an email can be registered once.  After a successful
    [POST /users/], and after any sequence of further requests of any
    kind, every [POST /users/] with the same email ends in 400 "User with
    this email already exists" and leaves the database as it found it,
    whatever the other fields of the request. *)
Theorem second_registration_rejected
    (env env' : Env) (user user' : UserCreate.t) (d d' : Database)
    (resp : Response) (calls : list (Env * Request)) :
  app env (POST_users user) d = (Return resp, d') ->
  UserCreate.email user' = UserCreate.email user ->
  app env' (POST_users user') (run calls d')
  = (HTTPException 400 "User with this email already exists", run calls d').
Proof.
  intros H He. apply created_inversion in H. destruct H as [_ [-> _]].
  rewrite app_POST_users_decided.
  assert (Htaken : email_taken (insert_user (new_row env user) d)
                     (UserCreate.email user') = true).
  { apply existsb_exists. exists (new_row env user). split.
    - simpl. apply in_or_app. right. now left.
    - rewrite He. apply String.eqb_refl. }
  now rewrite (email_taken_after_run calls _ _ Htaken).
Qed.

Lemma second_registration_rejected_witness :
  app env_d (POST_users dave) db_ab
  = (Return (One (from_orm (new_row env_d dave))),
     insert_user (new_row env_d dave) db_ab) /\
  UserCreate.email dave = UserCreate.email dave /\
  List.length
    (users (run [(env_d, GET_getall_users);
                 ({| uuid4 := "id-e"; now := 5000 |},
                  POST_users (UserCreate.Build "Eve" "eve@example.org"
                                "eve-secret" None))]
                (insert_user (new_row env_d dave) db_ab))) = 4%nat /\
  app env_d (POST_users dave)
    (run [(env_d, GET_getall_users);
          ({| uuid4 := "id-e"; now := 5000 |},
           POST_users (UserCreate.Build "Eve" "eve@example.org"
                         "eve-secret" None))]
         (insert_user (new_row env_d dave) db_ab))
  = (HTTPException 400 "User with this email already exists",
     run [(env_d, GET_getall_users);
          ({| uuid4 := "id-e"; now := 5000 |},
           POST_users (UserCreate.Build "Eve" "eve@example.org"
                         "eve-secret" None))]
         (insert_user (new_row env_d dave) db_ab)).
Proof.
  assert (H : app env_d (POST_users dave) db_ab
              = (Return (One (from_orm (new_row env_d dave))),
                 insert_user (new_row env_d dave) db_ab)) by reflexivity.
  split; [exact H|]. split; [reflexivity|]. split; [reflexivity|].
  exact (@second_registration_rejected env_d env_d dave dave db_ab _ _
           [(env_d, GET_getall_users);
            ({| uuid4 := "id-e"; now := 5000 |},
             POST_users (UserCreate.Build "Eve" "eve@example.org"
                           "eve-secret" None))] H eq_refl).
Defined.

(** ** No user twice in a response *)

Section Distinct.
Context {A B : Type} (f : A -> B).
Implicit Types (l : list A).

Lemma NoDup_map_filter (p : A -> bool) l :
  NoDup (map f l) -> NoDup (map f (filter p l)).
Proof.
  induction l as [|x l IH]; simpl; intro H; [constructor|].
  apply NoDup_cons_iff in H. destruct H as [Hx Hl].
  destruct (p x); [|now apply IH].
  simpl. constructor; [|now apply IH].
  intro Hin. apply Hx. apply in_map_iff in Hin.
  destruct Hin as [y [Hy Hin]]. apply filter_In in Hin.
  rewrite <- Hy. apply in_map. tauto.
Qed.

Lemma NoDup_map_firstn_skipn (n k : nat) l :
  NoDup (map f l) -> NoDup (map f (firstn n (skipn k l))).
Proof.
  intro H.
  rewrite <- (firstn_skipn k l), map_app in H.
  apply NoDup_app_remove_l in H.
  rewrite <- (firstn_skipn n (skipn k l)), map_app in H.
  now apply NoDup_app_remove_r in H.
Qed.

Lemma filter_only (p : A -> bool) l (u : A) :
  NoDup l -> In u l -> p u = true ->
  (forall x, In x l -> p x = true -> x = u) ->
  filter p l = [u].
Proof.
  induction l as [|x l IH]; simpl; intros Hnd Hin Hu Honly; [contradiction|].
  apply NoDup_cons_iff in Hnd. destruct Hnd as [Hx Hl].
  assert (Hrest : ~ In u l -> filter p l = []).
  { intro Hnot. destruct (filter p l) as [|y r] eqn:E; [reflexivity|].
    assert (Hy : In y (filter p l)) by (rewrite E; now left).
    apply filter_In in Hy. destruct Hy as [Hy1 Hy2].
    elim Hnot. rewrite <- (Honly y (or_intror Hy1) Hy2). exact Hy1. }
  destruct Hin as [->|Hin].
  - rewrite Hu. f_equal. now apply Hrest.
  - destruct (p x) eqn:Hpx.
    + exfalso. apply Hx.
      rewrite (Honly x (or_introl eq_refl) Hpx). exact Hin.
    + apply IH; try assumption.
      intros y Hy. apply Honly. now right.
Qed.
End Distinct.

Lemma map_id_from_orm (l : list UserModel.t) :
  map User.id (map from_orm l) = map UserModel.id l.
Proof. rewrite map_map. reflexivity. Qed.

(** X14: when the identifiers of [users] are pairwise distinct, no response
    lists a user twice: the identifiers of the users in a successful
    response of any route are pairwise distinct. *)
Theorem responses_list_users_once
    (env : Env) (req : Request) (d d' : Database) (resp : Response) :
  NoDup (map UserModel.id (users d)) ->
  app env req d = (Return resp, d') ->
  NoDup (map User.id (response_users resp)).
Proof.
  intros Hnd H.
  assert (Hone : forall x : User.t, NoDup (map User.id [x]))
    by (intro x; simpl; constructor; [intros [] | constructor]).
  destruct req as [user| |user_id|user_id page per_page].
  - apply created_inversion in H. destruct H as [-> _]. apply Hone.
  - rewrite app_GET_getall_users in H. injection H as <- <-.
    simpl. now rewrite map_id_from_orm.
  - rewrite app_GET_users in H.
    destruct (lookup d user_id); [|discriminate].
    injection H as <- <-. apply Hone.
  - rewrite app_GET_referrals in H.
    destruct (lookup d user_id); [|discriminate]. simpl in H.
    destruct (default 20 per_page =? 0); [discriminate|].
    destruct ((default 1 page <? 1) || _); [discriminate|].
    injection H as <- <-. simpl. rewrite map_id_from_orm.
    unfold py_slice, matches.
    apply NoDup_map_firstn_skipn. now apply NoDup_map_filter.
Qed.

Lemma responses_list_users_once_witness :
  NoDup (map UserModel.id (users db_ab)) /\
  app env_d (GET_referrals "id-b" None None) db_ab
  = (Return (Many [from_orm alice; from_orm bob]), db_ab) /\
  NoDup (map User.id [from_orm alice; from_orm bob]).
Proof.
  assert (Hnd : NoDup (map UserModel.id (users db_ab)))
    by exact (proj1 unique_keys_db_ab).
  assert (H : app env_d (GET_referrals "id-b" None None) db_ab
              = (Return (Many [from_orm alice; from_orm bob]), db_ab))
    by reflexivity.
  split; [exact Hnd|]. split; [exact H|].
  exact (@responses_list_users_once env_d _ db_ab db_ab _ Hnd H).
Defined.

(** X15: a user whose [referral_code] no other stored user has (null
    included) is not left without an answer: when identifiers are pairwise
    distinct, the lookup selects that user alone, page 1 returns exactly
    that user for every [per_page >= 1], and every other page ends in 404
    "Invalid page number". *)
Theorem referral_of_unshared_code
    (env : Env) (d : Database) (user_id : string) (u : UserModel.t)
    (page per_page : Z) :
  NoDup (map UserModel.id (users d)) ->
  lookup d user_id = Some u ->
  (forall v, In v (users d) ->
             UserModel.referral_code v = UserModel.referral_code u -> v = u) ->
  1 <= per_page ->
  matches d (UserModel.referral_code u) = [u] /\
  app env (GET_referrals user_id (Some page) (Some per_page)) d
  = if page =? 1
    then (Return (Many [from_orm u]), d)
    else (HTTPException 404 "Invalid page number", d).
Proof.
  intros Hnd Hu Honly Hpp.
  assert (Hsel : matches d (UserModel.referral_code u) = [u]).
  { unfold matches. apply filter_only.
    - now apply NoDup_map_inv with (f := UserModel.id).
    - now apply lookup_Some in Hu.
    - apply column_eq_refl.
    - intros x Hin Hx. apply column_eq_iff in Hx. now apply Honly. }
  split; [exact Hsel|].
  assert (Hcount : match_count d u = 1)
    by (unfold match_count; now rewrite Hsel).
  assert (Htp : page_count (match_count d u) per_page = 1).
  { pose proof (page_count_bounds (match_count d u) Hpp) as B.
    rewrite Hcount in *. nia. }
  destruct (Z.eqb_spec page 1) as [->|Hne].
  - rewrite (@referral_single_page env d user_id u per_page Hu Hpp)
      by lia.
    now rewrite Hsel.
  - apply referral_page_out_of_range with (u := u); try assumption.
    rewrite Htp. lia.
Qed.

Lemma referral_of_unshared_code_witness :
  NoDup (map UserModel.id (users db_abc)) /\
  lookup db_abc "id-c" = Some carol /\ 1 <= 20 /\
  matches db_abc (UserModel.referral_code carol) = [carol] /\
  app env_d (GET_referrals "id-c" (Some 1) (Some 20)) db_abc
  = (Return (Many [from_orm carol]), db_abc).
Proof.
  assert (Hnd : NoDup (map UserModel.id (users db_abc))).
  { simpl. repeat constructor; simpl; intuition discriminate. }
  assert (Hu : lookup db_abc "id-c" = Some carol) by reflexivity.
  assert (Honly : forall v, In v (users db_abc) ->
            UserModel.referral_code v = UserModel.referral_code carol ->
            v = carol).
  { simpl. intros v [<-|[<-|[<-|[]]]] Hc; try discriminate. reflexivity. }
  assert (Hpp : 1 <= 20) by lia.
  split; [exact Hnd|]. split; [exact Hu|]. split; [exact Hpp|].
  exact (@referral_of_unshared_code env_d db_abc "id-c" carol 1 20
           Hnd Hu Honly Hpp).
Defined.
